(** * awsfabrictasks.ec2.api: a shallow embedding and its verification

    The module [awsfabrictasks/ec2/api.py] is a thin layer over boto's EC2
    client and fabric.  This development embeds the functions of that module
    in Rocq and proves properties of

    - instance identifier parsing ([_parse_instanceident], [parse_instanceid]),
    - the polling loop [wait_for_state] and its callers,
    - tag lookup ([get_by_tagvalue]) and tag merging ([get_all_tags]),
    - the confirmation prompt ([_confirm], [confirm_many]).

    Python values are modelled as follows: [str] as [string], [int] as [Z],
    [dict] as [gmap], list objects that are mutated in place as cells of a
    store, exceptions as an inductive type, and the effects of the module
    (printing, sleeping, calls to EC2, reading a line from the operator) as
    a state and exception monad over a [World] that records every effect in
    a trace. *)

From Stdlib Require Import ZArith Lia List String Ascii DecimalString.
From stdpp Require Import gmap strings list fin_maps.

Local Open Scope string_scope.
Local Open Scope Z_scope.

(** ** Python string operations used by the module *)

Module PyStr.

(** The double quote character, which the messages of [wait_for_state]
    contain. *)
Definition dquote : string :=
  String (Ascii false true false false false true false false) EmptyString.

(** [c in s] for a one character string [c]. *)
Fixpoint contains (c : ascii) (s : string) : bool :=
  match s with
  | EmptyString => false
  | String a s' => if Ascii.eqb a c then true else contains c s'
  end.

(** [s.split(sep, maxsplit)] for a one character separator. *)
Fixpoint split (sep : ascii) (maxsplit : nat) (s : string) {struct s}
  : list string :=
  match s with
  | EmptyString => [EmptyString]
  | String a s' =>
      match maxsplit with
      | O => [s]
      | S m =>
          if Ascii.eqb a sep then EmptyString :: split sep m s'
          else match split sep maxsplit s' with
               | piece :: rest => String a piece :: rest
               | [] => [String a EmptyString]
               end
      end
  end.

(** [s.lower()] on a byte string: the letters A-Z are mapped to a-z, every
    other byte is kept. *)
Definition lower_ascii (c : ascii) : ascii :=
  let n := nat_of_ascii c in
  if ((65 <=? n)%nat && (n <=? 90)%nat)%bool then ascii_of_nat (n + 32) else c.

Fixpoint lower (s : string) : string :=
  match s with
  | EmptyString => EmptyString
  | String a s' => String (lower_ascii a) (lower s')
  end.

(** [str(n)] / the rendering of an integer by [format]. *)
Definition of_Z (n : Z) : string := NilZero.string_of_int (Z.to_int n).

(** [sep.join(pieces)]. *)
Fixpoint join (sep : string) (pieces : list string) : string :=
  match pieces with
  | [] => EmptyString
  | [p] => p
  | p :: rest => p +:+ sep +:+ join sep rest
  end.

Definition LF : ascii := ascii_of_nat 10.
Definition CR : ascii := ascii_of_nat 13.

(** [s.splitlines()] on a byte string: lines end at LF, CR or CR LF, the
    line ends are dropped and a final line end opens no empty line. *)
Fixpoint splitlines_aux (cur : string) (s : string) : list string :=
  match s with
  | EmptyString =>
      match cur with EmptyString => [] | _ => [cur] end
  | String a s' =>
      if Ascii.eqb a LF then cur :: splitlines_aux EmptyString s'
      else if Ascii.eqb a CR then
        match s' with
        | String b s'' =>
            if Ascii.eqb b LF then cur :: splitlines_aux EmptyString s''
            else cur :: splitlines_aux EmptyString s'
        | EmptyString => [cur]
        end
      else splitlines_aux (cur +:+ String a EmptyString) s'
  end.

Definition splitlines (s : string) : list string :=
  splitlines_aux EmptyString s.

(** ['-' * 80] and the like. *)
Fixpoint repeat_str (s : string) (n : nat) : string :=
  match n with
  | O => EmptyString
  | S n' => s +:+ repeat_str s n'
  end.

End PyStr.

(** ** Data model *)

(** The attributes of a [boto.ec2.instance.Instance] that the module reads. *)
Module boto.

Record Instance := {
  id : string;
  state : string;
  tags : gmap string string;
  public_dns_name : string;
  key_name : string
}.

Record Reservation := { instances : list Instance }.

(** The two ways the module calls [connection.get_all_instances]: with a
    list of instance ids, or with [filters=...]. *)
Inductive Query :=
| InstanceIds (ids : list string)
| Filters (filters : gmap string string).

(** A connection to a region, as returned by [connect_to_region]. *)
Record Connection := { region_name : string }.

End boto.

(** The keyword arguments that [_configure] collects for [run_instances]. *)
Record Kw := {
  kw_key_name : string;
  kw_instance_type : string;
  kw_security_groups : list string;
  kw_placement : option string
}.

(** An entry of [awsfab_settings.EC2_LAUNCH_CONFIGS]: a dict, so that every
    key may be absent. *)
Record Conf := {
  conf_region : option string;
  conf_ami : option string;
  conf_key_name : option string;
  conf_instance_type : option string;
  conf_security_groups : option (list string);
  conf_availability_zone : option string;
  conf_tags : option (gmap string string);
  conf_description : option string
}.

(** The part of [awsfab_settings] that the module reads. *)
Record Settings := {
  DEFAULT_REGION : string;
  EC2_LAUNCH_CONFIGS : gmap string Conf
}.

(** Exceptions raised by the module and by the library calls it makes. *)
Inductive exn :=
| IndexError
| KeyError (key : string)
| LookupError (msg : string)
| Ec2RegionConnectionError (region : option string)
| WaitForStateError (msg : string)
| SystemExit (code : Z)
| EOFError
| IOError
| AttributeError
| EC2ResponseError.

Inductive Result (A : Type) :=
| Ok (a : A)
| Raise (e : exn).
Arguments Ok {A} a.
Arguments Raise {A} e.

(** Every effect of the module is recorded as an event. *)
Inductive Event :=
| Print (line : string)
| Sleep (secs : Z)
| RawInput (prompt : string)
| Abort (msg : string)
| ConnectToRegion (region : option string)
| GetAllInstances (region : string) (q : boto.Query)
| RunInstances (region : string) (ami : string) (kw : Kw)
| AddTag (instanceid key value : string).

(** A reference to a Python list object. *)
Definition loc := nat.

(** The state the module runs in.  [store] holds the list objects that are
    passed by reference, [stdin] the lines the operator will type, [clock]
    counts the calls made to EC2 so far, and [trace] lists the effects in
    the order they happened. *)
Record World := {
  store : gmap loc (list Z);
  stdin : list string;
  clock : nat;
  trace : list Event
}.

(** The state and exception monad.  A raised exception keeps the world:
    what was printed or mutated before the raise stays so. *)
Definition M (A : Type) : Type := World -> Result A * World.

Definition ret {A} (a : A) : M A := fun w => (Ok a, w).

Definition bind {A B} (m : M A) (k : A -> M B) : M B :=
  fun w =>
    match m w with
    | (Ok a, w') => k a w'
    | (Raise e, w') => (Raise e, w')
    end.

Definition raise {A} (e : exn) : M A := fun w => (Raise e, w).

Declare Scope py_scope.
Delimit Scope py_scope with py.
Notation "x <- c1 ;; c2" := (bind c1 (fun x => c2))
  (at level 100, c1 at next level, right associativity) : py_scope.
Notation "c1 ;; c2" := (bind c1 (fun _ => c2))
  (at level 100, right associativity) : py_scope.
Local Open Scope py_scope.

Definition emit (e : Event) : M unit :=
  fun w =>
    (Ok tt, {| store := store w; stdin := stdin w; clock := clock w;
               trace := trace w ++ [e] |}).

Definition tick : M nat :=
  fun w =>
    (Ok (clock w), {| store := store w; stdin := stdin w;
                      clock := S (clock w); trace := trace w |}).

(** The [print] statement. *)
Definition print (line : string) : M unit := emit (Print line).

(** [time.sleep(secs)].  CPython 2 sleeps through [select], which fails
    with [IOError] (EINVAL) on a negative duration. *)
Definition sleep (secs : Z) : M unit :=
  emit (Sleep secs) ;;
  if secs <? 0 then raise IOError else ret tt.

(** [fabric.api.abort(msg)]: reports [msg] and exits through [SystemExit]. *)
Definition abort {A} (msg : string) : M A :=
  emit (Abort msg) ;; raise (SystemExit 1).

(** [raw_input(prompt)]: shows the prompt and reads one line, without its
    line end; [EOFError] when there is no more input. *)
Definition raw_input (prompt : string) : M string :=
  emit (RawInput prompt) ;;
  fun w =>
    match stdin w with
    | [] => (Raise EOFError, w)
    | line :: rest =>
        (Ok line, {| store := store w; stdin := rest; clock := clock w;
                     trace := trace w |})
    end.

(** Reading and writing list objects.  A reference outside the store
    denotes no list: the call fails as a method call on a non-list does. *)
Definition load (l : loc) : M (list Z) :=
  fun w =>
    match store w !! l with
    | Some xs => (Ok xs, w)
    | None => (Raise AttributeError, w)
    end.

Definition save (l : loc) (xs : list Z) : M unit :=
  fun w =>
    (Ok tt, {| store := <[l := xs]> (store w); stdin := stdin w;
               clock := clock w; trace := trace w |}).

(** [for x in xs: body x]. *)
Fixpoint for_each {A} (xs : list A) (body : A -> M unit) : M unit :=
  match xs with
  | [] => ret tt
  | x :: xs' => body x ;; for_each xs' body
  end.

(** ** The collaborators *)

(** EC2 as boto shows it.  [connect_to_region] yields no connection for a
    region it does not know.  The answers of EC2 change with time: the
    first argument of [get_all_instances] and [run_instances] is the number
    of calls made before this one. *)
Record EC2 := {
  connect_to_region : option string -> option boto.Connection;
  ec2_get_all_instances :
    nat -> string -> boto.Query -> Result (list boto.Reservation);
  ec2_run_instances : nat -> string -> string -> Kw -> Result boto.Reservation
}.

(** Formatting functions of the Python library, which the module only
    passes values to: [repr] and [pprint.pformat] of a dict,
    [textwrap.fill] and [os.linesep]. *)
Record PyLib := {
  repr_dict : gmap string string -> string;
  pformat_kw : Kw -> string;
  pformat_dict : gmap string string -> string;
  fill : string -> Z -> string;
  linesep : string
}.

(** [Ec2InstanceWrapper]: an object with the one attribute [instance]. *)
Record Ec2InstanceWrapper := { instance : boto.Instance }.

(** [Ec2LaunchInstance]: the attributes set by [__init__], [_configure] and
    [run_instance].  Launchers are passed by value; [run_instance] returns
    the launcher with [launched] set. *)
Record Ec2LaunchInstance := {
  extra_tags : gmap string string;
  conf : Conf;
  kw : Kw;
  configname : option string;
  launched : option boto.Instance
}.

(** [d.update(other)]: the entries of [other] win. *)
Definition dict_update (d other : gmap string string) : gmap string string :=
  other ∪ d.

(** [d[key]] on a dict whose entry may be absent. *)
Definition getitem {A} (key : string) (entry : option A) : M A :=
  match entry with
  | Some v => ret v
  | None => raise (KeyError key)
  end.

(** [xs[-1]]. *)
Definition last_item (xs : list Z) : M Z :=
  match last xs with
  | Some x => ret x
  | None => raise IndexError
  end.

(** [[body for x in xrange(n)]] for a body that does not use [x]. *)
Fixpoint comprehension {A} (n : nat) (body : M A) : M (list A) :=
  match n with
  | O => ret []
  | S n' => x <- body ;; rest <- comprehension n' body ;; ret (x :: rest)
  end.

(** [sum(xs)]. *)
Definition sum (xs : list Z) : Z := fold_left Z.add xs 0.

(** The list object that the [def wait_for_state] statement creates for the
    default value of [sleep_intervals], once, when the module is loaded. *)
Definition wait_for_state_defaults : loc := 0%nat.

(** The world right after the module is loaded. *)
Definition module_loaded (input : list string) : World :=
  {| store := {[ wait_for_state_defaults := [15; 5] ]};
     stdin := input; clock := 0; trace := [] |}.

Section Api.

Variable awsfab_settings : Settings.
Variable ec2 : EC2.
Variable py : PyLib.

(** *** Instance identifiers *)

(** The test [':' in s] guards the unpacking of the split, which then
    always yields two parts ([split_contains] below); the last branch is
    never taken. *)
Definition _parse_instanceident (instanceid_with_optional_region : string)
  : string * string :=
  if PyStr.contains ":" instanceid_with_optional_region then
    match PyStr.split ":" 1 instanceid_with_optional_region with
    | [region; instanceid] => (region, instanceid)
    | _ => (DEFAULT_REGION awsfab_settings, instanceid_with_optional_region)
    end
  else
    let instanceid := instanceid_with_optional_region in
    let region := DEFAULT_REGION awsfab_settings in
    (region, instanceid).

Definition parse_instanceid (instanceid_with_optional_region : string)
  : string * string :=
  _parse_instanceident instanceid_with_optional_region.

Definition parse_instancename (instancename_with_optional_region : string)
  : string * string :=
  _parse_instanceident instancename_with_optional_region.

(** *** Calls to EC2 *)

Definition connect (region : option string) : M (option boto.Connection) :=
  emit (ConnectToRegion region) ;;
  ret (connect_to_region ec2 region).

Definition get_all_instances (connection : boto.Connection) (q : boto.Query)
  : M (list boto.Reservation) :=
  emit (GetAllInstances (boto.region_name connection) q) ;;
  now <- tick ;;
  match ec2_get_all_instances ec2 now (boto.region_name connection) q with
  | Ok reservations => ret reservations
  | Raise e => raise e
  end.

Definition run_instances (connection : boto.Connection) (ami : string)
    (kwargs : Kw) : M boto.Reservation :=
  emit (RunInstances (boto.region_name connection) ami kwargs) ;;
  now <- tick ;;
  match ec2_run_instances ec2 now (boto.region_name connection) ami kwargs with
  | Ok reservation => ret reservation
  | Raise e => raise e
  end.

Definition add_tag (inst : boto.Instance) (tagname value : string) : M unit :=
  emit (AddTag (boto.id inst) tagname value).

(** *** Ec2InstanceWrapper *)

(** [self['state']], that is [getattr(self.instance, 'state')]. *)
Definition getitem_state (self : Ec2InstanceWrapper) : string :=
  boto.state (instance self).

(** [region is None and awsfab_settings.DEFAULT_REGION or region]: the
    default region when no region is given, unless the default is the
    empty string, which is false and leaves [None]. *)
Definition region_or_default (region : option string) : option string :=
  match region with
  | None =>
      if String.eqb (DEFAULT_REGION awsfab_settings) "" then None
      else Some (DEFAULT_REGION awsfab_settings)
  | Some r => Some r
  end.

Definition get_by_tagvalue (tags : gmap string string) (region : option string)
  : M (list Ec2InstanceWrapper) :=
  let region := region_or_default region in
  connection <- connect region ;;
  match connection with
  | None => raise (Ec2RegionConnectionError region)
  | Some connection =>
      let tags := kmap (String.append "tag:") tags in
      reservations <- get_all_instances connection (boto.Filters tags) ;;
      if (length reservations =? 0)%nat then
        raise (LookupError ("No ec2 instances with tags" +:+ repr_dict py tags))
      else
        ret (flat_map (fun r => map Build_Ec2InstanceWrapper (boto.instances r))
               reservations)
  end.

Definition get_by_instanceid (instanceid : string) : M Ec2InstanceWrapper :=
  let '(region, instanceid) := parse_instanceid instanceid in
  connection <- connect (Some region) ;;
  match connection with
  | None => raise (Ec2RegionConnectionError (Some region))
  | Some connection =>
      reservations <-
        get_all_instances connection (boto.InstanceIds [instanceid]) ;;
      match reservations with
      | [] =>
          raise (LookupError
                   ("No ec2 instances with instanceid=" +:+ instanceid))
      | reservation :: _ =>
          match boto.instances reservation with
          | [inst] => ret (Build_Ec2InstanceWrapper inst)
          | _ =>
              raise (LookupError
                       ("Did not get exactly one instance with instanceid="
                          +:+ instanceid))
          end
      end
  end.

(** *** Waiting for a state *)

Definition waiting_message (instanceid state_name : string) (max_wait_sec : Z)
  : string :=
  "Waiting for " +:+ instanceid +:+ " to change state to: "
    +:+ PyStr.dquote +:+ state_name +:+ PyStr.dquote
    +:+ ". Will try for " +:+ PyStr.of_Z max_wait_sec +:+ "s.".

Definition next_poll_message (current_state_name state_name : string)
    (index_n1 sleep_intervals_len sleep_sec : Z) : string :=
  ".. Current state: " +:+ PyStr.dquote +:+ current_state_name
    +:+ PyStr.dquote +:+ ". Next poll (" +:+ PyStr.of_Z index_n1 +:+ "/"
    +:+ PyStr.of_Z sleep_intervals_len +:+ ") for " +:+ PyStr.dquote
    +:+ state_name +:+ PyStr.dquote +:+ "-state in "
    +:+ PyStr.of_Z sleep_sec +:+ "s.".

Definition timeout_message (state_name : string) (max_wait_sec : Z) : string :=
  "Desired state, " +:+ PyStr.dquote +:+ state_name +:+ PyStr.dquote
    +:+ ", not achieved in " +:+ PyStr.of_Z max_wait_sec +:+ "s.".

(** The [for index, sleep_sec in enumerate(sleep_intervals)] loop, from
    position [index] on.  It yields [true] when the body returned from
    [wait_for_state], and [false] when the loop ran to its end. *)
Fixpoint wait_for_state_loop (instanceid state_name : string)
    (sleep_intervals_len : Z) (index : Z) (remaining : list Z) : M bool :=
  match remaining with
  | [] => ret false
  | sleep_sec :: remaining' =>
      instancewrapper <- get_by_instanceid instanceid ;;
      let current_state_name := getitem_state instancewrapper in
      if String.eqb current_state_name state_name then
        print ".. OK" ;;
        ret true
      else
        let index_n1 := index + 1 in
        print (next_poll_message current_state_name state_name index_n1
                 sleep_intervals_len sleep_sec) ;;
        sleep sleep_sec ;;
        wait_for_state_loop instanceid state_name sleep_intervals_len
          (index + 1) remaining'
  end.

(** [sleep_intervals] is a reference to a list object, [None] when the
    caller leaves the argument out; then it is the one default object.
    [last_sleep_repeat] is [None] when left out. *)
Definition wait_for_state (instanceid state_name : string)
    (sleep_intervals : option loc) (last_sleep_repeat : option Z) : M unit :=
  let sleep_intervals := default wait_for_state_defaults sleep_intervals in
  let last_sleep_repeat := default 40 last_sleep_repeat in
  let '(region, instanceid) := parse_instanceid instanceid in
  items <- load sleep_intervals ;;
  extension <- comprehension (Z.to_nat last_sleep_repeat) (last_item items) ;;
  save sleep_intervals (items ++ extension) ;;
  items <- load sleep_intervals ;;
  let max_wait_sec := sum items in
  print (waiting_message instanceid state_name max_wait_sec) ;;
  let sleep_intervals_len := Z.of_nat (length items) in
  returned <-
    wait_for_state_loop instanceid state_name sleep_intervals_len 0 items ;;
  if returned : bool then ret tt
  else raise (WaitForStateError (timeout_message state_name max_wait_sec)).

Definition wait_for_stopped_state (instanceid : string)
    (sleep_intervals : option loc) (last_sleep_repeat : option Z) : M unit :=
  wait_for_state instanceid "stopped" sleep_intervals last_sleep_repeat.

Definition wait_for_running_state (instanceid : string)
    (sleep_intervals : option loc) (last_sleep_repeat : option Z) : M unit :=
  wait_for_state instanceid "running" sleep_intervals last_sleep_repeat.

(** *** Ec2LaunchInstance *)

(** [launcher.instance.id]; the attribute access fails while
    [run_instance] has not set [instance]. *)
Definition launched_id (launcher : Ec2LaunchInstance) : M string :=
  match launched launcher with
  | Some inst => ret (boto.id inst)
  | None => raise AttributeError
  end.

Definition wait_for_running_state_many (launchers : list Ec2LaunchInstance)
    (sleep_intervals : option loc) (last_sleep_repeat : option Z) : M unit :=
  for_each launchers (fun launcher =>
    instanceid <- launched_id launcher ;;
    wait_for_running_state instanceid sleep_intervals last_sleep_repeat).

Definition get_all_tags (self : Ec2LaunchInstance) : M (gmap string string) :=
  let tags : gmap string string := ∅ in
  conf_tags <- getitem "tags" (conf_tags (conf self)) ;;
  let tags := dict_update tags conf_tags in
  let tags := dict_update tags (extra_tags self) in
  ret tags.

Definition prettyformat (self : Ec2LaunchInstance) : M string :=
  tags <- get_all_tags self ;;
  let info :=
    pformat_kw py (kw self) +:+ linesep py +:+ "Tags: "
      +:+ pformat_dict py tags in
  match tags !! "Name" with
  | Some name =>
      let info := "Name=" +:+ name +:+ ":" +:+ linesep py +:+ info in
      let info :=
        PyStr.join (String PyStr.LF "   ") (PyStr.splitlines info) in
      ret info
  | None => ret info
  end.

Definition _confirm (question : string) : M unit :=
  answer <- raw_input (question +:+ " [y/N]? ") ;;
  if negb (String.eqb (PyStr.lower answer) "y") then abort "Aborted"
  else ret tt.

Definition confirm_many (launchers : list Ec2LaunchInstance) : M unit :=
  print (fill py
           ("Are you sure you want to launch (create) the following new instances "
              +:+ "with the following settings and tags?") 80) ;;
  print (PyStr.repeat_str "-" 80) ;;
  for_each launchers (fun launcher =>
    print "" ;;
    text <- prettyformat launcher ;;
    print text) ;;
  print (PyStr.repeat_str "-" 80) ;;
  _confirm "Create instances".

Definition confirm (self : Ec2LaunchInstance) : M unit :=
  print (fill py
           ("Are you sure you want to launch (create) a new instance "
              +:+ "with the following settings and tags?") 80) ;;
  print (PyStr.repeat_str "-" 80) ;;
  text <- prettyformat self ;;
  print text ;;
  print (PyStr.repeat_str "-" 80) ;;
  _confirm "Create instance".

Definition _add_tags (self : Ec2LaunchInstance) (inst : boto.Instance)
  : M unit :=
  all_tags <- get_all_tags self ;;
  if bool_decide (is_Some (all_tags !! "tags")) then
    conf_tags <- getitem "tags" (conf_tags (conf self)) ;;
    for_each (map_to_list conf_tags) (fun '(tagname, value) =>
      add_tag inst tagname value)
  else ret tt.

(** [connection.run_instances] is looked up before its arguments are
    evaluated, so a missing connection fails first. *)
Definition run_instance (self : Ec2LaunchInstance)
  : M (boto.Instance * Ec2LaunchInstance) :=
  region <- getitem "region" (conf_region (conf self)) ;;
  connection <- connect (Some region) ;;
  match connection with
  | None => raise AttributeError
  | Some connection =>
      ami <- getitem "ami" (conf_ami (conf self)) ;;
      reservation <- run_instances connection ami (kw self) ;;
      match boto.instances reservation with
      | [] => raise IndexError
      | inst :: _ =>
          _add_tags self inst ;;
          ret (inst,
               {| extra_tags := extra_tags self; conf := conf self;
                  kw := kw self; configname := configname self;
                  launched := Some inst |})
      end
  end.

Fixpoint run_many_instances (launchers : list Ec2LaunchInstance)
  : M (list Ec2LaunchInstance) :=
  match launchers with
  | [] => ret []
  | launcher :: rest =>
      r <- run_instance launcher ;;
      rest' <- run_many_instances rest ;;
      ret (snd r :: rest')
  end.

(** The use the class documents for a batch: confirm, launch, wait. *)
Definition launch_many (launchers : list Ec2LaunchInstance) : M unit :=
  confirm_many launchers ;;
  launchers <- run_many_instances launchers ;;
  wait_for_running_state_many launchers None None.

End Api.

(** ** Observations on traces *)

Fixpoint count_events (p : Event -> bool) (tr : list Event) : nat :=
  match tr with
  | [] => O
  | e :: tr' => if p e then S (count_events p tr') else count_events p tr'
  end.

(** A state query: a call of [get_all_instances]. *)
Definition is_query (e : Event) : bool :=
  match e with GetAllInstances _ _ => true | _ => false end.

Definition is_sleep (e : Event) : bool :=
  match e with Sleep _ => true | _ => false end.

(** A launch: a call of [run_instances]. *)
Definition is_launch (e : Event) : bool :=
  match e with RunInstances _ _ _ => true | _ => false end.

(** A call that goes to the network. *)
Definition is_network_call (e : Event) : bool :=
  match e with
  | ConnectToRegion _ | GetAllInstances _ _ | RunInstances _ _ _
  | AddTag _ _ _ => true
  | _ => false
  end.

Definition queries (tr : list Event) : nat := count_events is_query tr.
Definition sleeps (tr : list Event) : nat := count_events is_sleep tr.

(** The instance with id [instanceid] was polled. *)
Definition polls_instance (instanceid : string) (e : Event) : bool :=
  match e with
  | GetAllInstances _ (boto.InstanceIds ids) =>
      bool_decide (instanceid ∈ ids)
  | _ => false
  end.

Definition waited_on (instanceid : string) (tr : list Event) : bool :=
  existsb (polls_instance instanceid) tr.

(** The world after more events and more calls to EC2. *)
Definition extend (w : World) (evs : list Event) (calls : nat) : World :=
  {| store := store w; stdin := stdin w; clock := (clock w + calls)%nat;
     trace := trace w ++ evs |}.

(** The instances of a batch, once launched. *)
Definition batch_ids (launchers : list Ec2LaunchInstance) : list string :=
  omap (fun l => boto.id <$> launched l) launchers.

(** At call number [now], EC2 answers the lookup that [get_by_instanceid]
    makes for [instanceid] with one reservation of one instance, which is
    in state [st]. *)
Definition reports (awsfab_settings : Settings) (ec2 : EC2) (now : nat)
    (instanceid st : string) : Prop :=
  exists conn inst rest,
    connect_to_region ec2
      (Some (fst (parse_instanceid awsfab_settings instanceid))) = Some conn /\
    ec2_get_all_instances ec2 now (boto.region_name conn)
      (boto.InstanceIds [snd (parse_instanceid awsfab_settings instanceid)])
    = Ok ({| boto.instances := [inst] |} :: rest) /\
    boto.state inst = st.

(** The world after the list object at [l] has become [xs]. *)
Definition store_list (w : World) (l : loc) (xs : list Z) : World :=
  {| store := <[l := xs]> (store w); stdin := stdin w; clock := clock w;
     trace := trace w |}.

(** [w'] is [w] after some more events and calls: the store and the
    pending input are the same. *)
Definition evolves (w w' : World) : Prop :=
  exists evs calls, w' = extend w evs calls.

(** A computation that only adds events and calls. *)
Definition frames {A} (m : M A) : Prop :=
  forall w, evolves w (snd (m w)).

(** ** Concrete collaborators for the examples *)

Module Examples.

Definition settings : Settings :=
  {| DEFAULT_REGION := "eu-west-1"; EC2_LAUNCH_CONFIGS := ∅ |}.

Definition pylib : PyLib :=
  {| repr_dict := fun _ => "{...}";
     pformat_kw := fun _ => "{...}";
     pformat_dict := fun _ => "{...}";
     fill := fun text _ => text;
     linesep := String PyStr.LF EmptyString |}.

Definition machine (instanceid st : string) : boto.Instance :=
  {| boto.id := instanceid; boto.state := st; boto.tags := ∅;
     boto.public_dns_name := "ec2.example.com"; boto.key_name := "key" |}.

(** An EC2 that knows every region, finds one instance for a lookup by
    one id, whose state at call [now] is [state_of now id], and finds
    nothing for any other query. *)
Definition ec2_of (state_of : nat -> string -> string) : EC2 :=
  {| connect_to_region := fun region =>
       match region with
       | Some r => Some {| boto.region_name := r |}
       | None => None
       end;
     ec2_get_all_instances := fun now _ q =>
       match q with
       | boto.InstanceIds [i] =>
           Ok [ {| boto.instances := [machine i (state_of now i)] |} ]
       | _ => Ok []
       end;
     ec2_run_instances := fun now _ ami _ =>
       Ok {| boto.instances := [machine ami "pending"] |} |}.

(** Every instance stays pending. *)
Definition ec2_stuck : EC2 := ec2_of (fun _ _ => "pending").

(** Every instance is pending for the first [n] calls, then running. *)
Definition ec2_running_after (n : nat) : EC2 :=
  ec2_of (fun now _ => if (now <? n)%nat then "pending" else "running").

(** The instance i-1 stays pending, every other one is running. *)
Definition ec2_first_stuck : EC2 :=
  ec2_of (fun _ i => if String.eqb i "i-1" then "pending" else "running").

(** A world whose store holds the default list of [wait_for_state] and,
    at reference 1, the list [items]. *)
Definition world_with (items : list Z) (input : list string) : World :=
  {| store := {[ wait_for_state_defaults := [15; 5]; 1%nat := items ]};
     stdin := input; clock := 0; trace := [] |}.

Definition some_conf (tags : option (gmap string string)) : Conf :=
  {| conf_region := Some "eu-west-1"; conf_ami := Some "ami-1";
     conf_key_name := Some "key"; conf_instance_type := Some "t1.micro";
     conf_security_groups := Some ["default"];
     conf_availability_zone := None; conf_tags := tags;
     conf_description := None |}.

Definition some_kw : Kw :=
  {| kw_key_name := "key"; kw_instance_type := "t1.micro";
     kw_security_groups := ["default"]; kw_placement := None |}.

(** A launcher over [some_conf], launched as [inst] if given. *)
Definition launcher (tags : option (gmap string string))
    (extra : gmap string string) (inst : option boto.Instance)
  : Ec2LaunchInstance :=
  {| extra_tags := extra; conf := some_conf tags; kw := some_kw;
     configname := Some "web"; launched := inst |}.

End Examples.

(** ** Lemmas on strings *)

Lemma count_events_app p tr1 tr2 :
  count_events p (tr1 ++ tr2) = (count_events p tr1 + count_events p tr2)%nat.
Proof.
  induction tr1 as [|e tr1 IH]; simpl; [reflexivity|].
  destruct (p e); simpl; rewrite IH; reflexivity.
Qed.

Lemma contains_false_split sep s :
  PyStr.contains sep s = false -> forall n, PyStr.split sep n s = [s].
Proof.
  induction s as [|a s IH]; intros H n; simpl in *; [reflexivity|].
  destruct n as [|n]; [reflexivity|].
  destruct (Ascii.eqb a sep); [discriminate|].
  rewrite (IH H). reflexivity.
Qed.

(** Splitting once at a separator that occurs: the part before its first
    occurrence and the whole remainder. *)
Lemma split_first sep l r :
  PyStr.contains sep l = false ->
  PyStr.split sep 1 (l +:+ String sep r) = [l; r].
Proof.
  induction l as [|a l IH]; intros H; simpl in *.
  - rewrite Ascii.eqb_refl. destruct r; reflexivity.
  - destruct (Ascii.eqb a sep); [discriminate|].
    rewrite (IH H). reflexivity.
Qed.

Lemma contains_app sep l r :
  PyStr.contains sep (l +:+ String sep r) = true.
Proof.
  induction l as [|a l IH]; simpl.
  - rewrite Ascii.eqb_refl. reflexivity.
  - destruct (Ascii.eqb a sep); [reflexivity|exact IH].
Qed.

(** A string that contains the separator splits in two. *)
Lemma split_contains sep s :
  PyStr.contains sep s = true ->
  exists l r, s = l +:+ String sep r /\ PyStr.contains sep l = false /\
              PyStr.split sep 1 s = [l; r].
Proof.
  induction s as [|a s IH]; intros H; simpl in H; [discriminate|].
  destruct (Ascii.eqb a sep) eqn:E.
  - apply Ascii.eqb_eq in E. subst a.
    exists EmptyString, s. split; [reflexivity|]. split; [reflexivity|].
    apply (split_first sep EmptyString s). reflexivity.
  - destruct (IH H) as (l & r & -> & Hl & Hs).
    exists (String a l), r. split; [reflexivity|]. split.
    + simpl. rewrite E. exact Hl.
    + change (String a (l +:+ String sep r)) with (String a l +:+ String sep r).
      apply split_first. simpl. rewrite E. exact Hl.
Qed.

(** Lower-casing yields ["y"] for the two strings ["y"] and ["Y"] only. *)
Lemma lower_ascii_y c : PyStr.lower_ascii c = "y"%char <-> c = "y"%char \/ c = "Y"%char.
Proof.
  split.
  - destruct c as [[] [] [] [] [] [] [] []]; vm_compute; intros H;
      first [discriminate H | left; reflexivity | right; reflexivity].
  - intros [-> | ->]; reflexivity.
Qed.

Lemma lower_y s : PyStr.lower s = "y" <-> s = "y" \/ s = "Y".
Proof.
  split.
  - destruct s as [|c [|c' s]]; simpl; intros H; try discriminate.
    injection H as H. apply lower_ascii_y in H. destruct H as [-> | ->]; auto.
  - intros [-> | ->]; reflexivity.
Qed.

(** ** Lemmas on the monad *)

Lemma extend_nil w : extend w [] 0 = w.
Proof.
  destruct w; unfold extend; simpl. rewrite Nat.add_0_r, app_nil_r. reflexivity.
Qed.

Lemma extend_extend w evs1 n1 evs2 n2 :
  extend (extend w evs1 n1) evs2 n2 = extend w (evs1 ++ evs2) (n1 + n2).
Proof.
  unfold extend; simpl. rewrite Nat.add_assoc, app_assoc. reflexivity.
Qed.

Lemma bind_ok {A B} (m : M A) (k : A -> M B) w a w' :
  m w = (Ok a, w') -> bind m k w = k a w'.
Proof. intros H. unfold bind. rewrite H. reflexivity. Qed.

Lemma bind_raise {A B} (m : M A) (k : A -> M B) w e w' :
  m w = (Raise e, w') -> bind m k w = (Raise e, w').
Proof. intros H. unfold bind. rewrite H. reflexivity. Qed.

Lemma emit_run e w : emit e w = (Ok tt, extend w [e] 0).
Proof. unfold emit, extend. rewrite Nat.add_0_r. reflexivity. Qed.

Lemma print_run line w : print line w = (Ok tt, extend w [Print line] 0).
Proof. apply emit_run. Qed.

Lemma tick_run w : tick w = (Ok (clock w), extend w [] 1).
Proof. unfold tick, extend. rewrite Nat.add_1_r, app_nil_r. reflexivity. Qed.

Lemma sleep_run secs w :
  0 <= secs -> sleep secs w = (Ok tt, extend w [Sleep secs] 0).
Proof.
  intros H. unfold sleep. rewrite (bind_ok _ _ _ _ _ (emit_run _ _)).
  destruct (Z.ltb_spec secs 0); [lia|reflexivity].
Qed.

Lemma evolves_refl w : evolves w w.
Proof. exists [], 0%nat. symmetry. apply extend_nil. Qed.

Lemma evolves_trans w1 w2 w3 : evolves w1 w2 -> evolves w2 w3 -> evolves w1 w3.
Proof.
  intros (e1 & n1 & ->) (e2 & n2 & ->). rewrite extend_extend. eexists _, _.
  reflexivity.
Qed.

Lemma frames_ret {A} (a : A) : frames (ret a).
Proof. intros w. apply evolves_refl. Qed.

Lemma frames_raise {A} e : frames (@raise A e).
Proof. intros w. apply evolves_refl. Qed.

Lemma frames_emit e : frames (emit e).
Proof. intros w. rewrite emit_run. eexists _, _. reflexivity. Qed.

Lemma frames_tick : frames tick.
Proof. intros w. rewrite tick_run. eexists _, _. reflexivity. Qed.

Lemma frames_bind {A B} (m : M A) (k : A -> M B) :
  frames m -> (forall a, frames (k a)) -> frames (bind m k).
Proof.
  intros Hm Hk w. unfold bind. specialize (Hm w).
  destruct (m w) as [[a|e] w']; simpl in *; [|exact Hm].
  eapply evolves_trans; [exact Hm|apply Hk].
Qed.

Lemma frames_sleep secs : frames (sleep secs).
Proof.
  unfold sleep. apply frames_bind; [apply frames_emit|].
  intros _. destruct (secs <? 0); [apply frames_raise|apply frames_ret].
Qed.

Create HintDb frames_db.
#[local] Hint Resolve frames_ret frames_raise frames_emit frames_tick
  frames_bind frames_sleep : frames_db.

Lemma evolves_store w w' : evolves w w' -> store w' = store w.
Proof. intros (evs & n & ->). reflexivity. Qed.

Lemma evolves_trace w w' :
  evolves w w' -> exists evs : list Event, trace w' = (trace w ++ evs)%list.
Proof. intros (evs & n & ->). exists evs. reflexivity. Qed.

(** ** Lemmas on the polling loop *)

Section Polling.

Variable awsfab_settings : Settings.
Variable ec2 : EC2.

Local Abbreviation get_by_instanceid := (get_by_instanceid awsfab_settings ec2).
Local Abbreviation wait_for_state_loop :=
  (wait_for_state_loop awsfab_settings ec2).
Local Abbreviation wait_for_state := (wait_for_state awsfab_settings ec2).
Local Abbreviation reports := (reports awsfab_settings ec2).

Lemma frames_connect region : frames (connect ec2 region).
Proof. unfold connect. auto with frames_db. Qed.

Lemma frames_get_all_instances conn q : frames (get_all_instances ec2 conn q).
Proof.
  unfold get_all_instances. apply frames_bind; [apply frames_emit|].
  intros _. apply frames_bind; [apply frames_tick|]. intros now.
  destruct (ec2_get_all_instances ec2 now _ q); auto with frames_db.
Qed.

Lemma frames_get_by_instanceid instanceid : frames (get_by_instanceid instanceid).
Proof.
  unfold get_by_instanceid.
  destruct (parse_instanceid awsfab_settings instanceid) as [region i].
  apply frames_bind; [apply frames_connect|]. intros [conn|];
    [|apply frames_raise].
  apply frames_bind; [apply frames_get_all_instances|].
  intros [|r rs]; [apply frames_raise|].
  destruct (boto.instances r) as [|inst [|? ?]]; auto with frames_db.
Qed.

Lemma frames_wait_for_state_loop instanceid state_name len remaining :
  forall index,
    frames (wait_for_state_loop instanceid state_name len index remaining).
Proof.
  induction remaining as [|sleep_sec remaining IH]; intros index; simpl.
  - apply frames_ret.
  - apply frames_bind; [apply frames_get_by_instanceid|]. intros iw.
    destruct (String.eqb _ _).
    + apply frames_bind; [apply frames_emit|]. intros _. apply frames_ret.
    + apply frames_bind; [apply frames_emit|]. intros _.
      apply frames_bind; [apply frames_sleep|]. intros _. apply IH.
Qed.

(** One successful poll: two events, one of them the query, and one call
    to EC2. *)
Lemma get_by_instanceid_reports w instanceid st :
  reports (clock w) instanceid st ->
  exists iw evs,
    get_by_instanceid instanceid w = (Ok iw, extend w evs 1) /\
    getitem_state iw = st /\ queries evs = 1%nat /\ sleeps evs = 0%nat.
Proof.
  intros (conn & inst & rest & Hc & Hq & Hst).
  unfold get_by_instanceid.
  destruct (parse_instanceid awsfab_settings instanceid) as [region i].
  simpl in Hc, Hq.
  exists (Build_Ec2InstanceWrapper inst),
    [ConnectToRegion (Some region);
     GetAllInstances (boto.region_name conn) (boto.InstanceIds [i])].
  split; [|split; [exact Hst|split; reflexivity]].
  unfold connect, get_all_instances.
  rewrite (bind_ok _ _ w (Some conn) (extend w [ConnectToRegion (Some region)] 0)).
  2:{ rewrite (bind_ok _ _ _ _ _ (emit_run _ _)). unfold ret. rewrite Hc.
      reflexivity. }
  erewrite bind_ok.
  2:{ rewrite (bind_ok _ _ _ _ _ (emit_run _ _)).
      rewrite (bind_ok _ _ _ _ _ (tick_run _)).
      simpl. rewrite !Nat.add_0_r, Hq. reflexivity. }
  simpl. unfold ret. rewrite !extend_extend. reflexivity.
Qed.

(** The loop when no poll finds the target state: it runs to its end,
    with one query and one sleep per duration, the last sleep included. *)
Lemma wait_for_state_loop_never instanceid state_name len remaining :
  forall w index,
    Forall (fun d => 0 <= d) remaining ->
    (forall i, (i < length remaining)%nat ->
       exists st, reports (clock w + i) instanceid st /\ st <> state_name) ->
    exists evs,
      wait_for_state_loop instanceid state_name len index remaining w
      = (Ok false, extend w evs (length remaining)) /\
      queries evs = length remaining /\
      sleeps evs = length remaining /\
      (forall d, last remaining = Some d -> last evs = Some (Sleep d)).
Proof.
  induction remaining as [|d remaining IH]; intros w index Hnn Hrep.
  - exists []. simpl. unfold ret. rewrite extend_nil.
    repeat split; auto. intros d H. discriminate H.
  - inversion Hnn as [|? ? Hd Hnn']; subst.
    destruct (Hrep 0%nat) as (st & Hst & Hne); [simpl; lia|].
    rewrite Nat.add_0_r in Hst.
    destruct (get_by_instanceid_reports w instanceid st Hst)
      as (iw & evs0 & Hrun & Hiw & Hq0 & Hs0).
    destruct (IH (extend w (evs0 ++ [Print (next_poll_message
                     st state_name (index + 1) len d); Sleep d]) 1)
                (index + 1) Hnn') as (evs & Hloop & Hq & Hs & Hlast).
    { intros i Hi. simpl. replace (clock w + 1 + i)%nat with (clock w + S i)%nat
        by lia. apply Hrep. simpl. lia. }
    eexists. split; [|split; [|split]].
    + simpl. rewrite (bind_ok _ _ _ _ _ Hrun). rewrite Hiw.
      destruct (String.eqb_spec st state_name) as [->|_]; [congruence|].
      rewrite (bind_ok _ _ _ _ _ (print_run _ _)).
      rewrite (bind_ok _ _ _ _ _ (sleep_run _ _ Hd)).
      rewrite !extend_extend. simpl.
      replace (evs0 ++ [Print (next_poll_message st state_name (index + 1) len d)]
                 ++ [Sleep d])%list
        with (evs0 ++ [Print (next_poll_message st state_name (index + 1) len d);
                       Sleep d])%list by reflexivity.
      rewrite Hloop, extend_extend. reflexivity.
    + unfold queries in *. rewrite !count_events_app, Hq0, Hq. reflexivity.
    + unfold sleeps in *. rewrite !count_events_app, Hs0, Hs. simpl. lia.
    + intros d' Hd'. destruct remaining as [|d2 remaining].
      * simpl in Hd'. injection Hd' as <-. simpl in Hloop.
        unfold ret in Hloop.
        assert (evs = []) as ->.
        { apply (f_equal (fun p => trace (snd p))) in Hloop. simpl in Hloop.
          rewrite <- (app_nil_r (trace w ++ _)) in Hloop at 1.
          apply app_inv_head in Hloop. auto. }
        rewrite app_nil_r, last_app. reflexivity.
      * rewrite last_cons_cons in Hd'. specialize (Hlast d' Hd').
        rewrite last_app, Hlast. reflexivity.
Qed.

(** The loop when poll number [j] (counted from 0) is the first to find
    the target state: it returns after [j + 1] queries and [j] sleeps. *)
Lemma wait_for_state_loop_reached instanceid state_name len remaining :
  forall j w index,
    (j < length remaining)%nat ->
    Forall (fun d => 0 <= d) (take j remaining) ->
    (forall i, (i < j)%nat ->
       exists st, reports (clock w + i) instanceid st /\ st <> state_name) ->
    reports (clock w + j) instanceid state_name ->
    exists evs,
      wait_for_state_loop instanceid state_name len index remaining w
      = (Ok true, extend w evs (S j)) /\
      queries evs = S j /\ sleeps evs = j /\
      exists pre post,
        evs = (pre ++ post)%list /\ queries pre = 1%nat /\ sleeps pre = 0%nat.
Proof.
  induction remaining as [|d remaining IH]; intros j w index Hj Hnn Hrep Hhit.
  - simpl in Hj. lia.
  - destruct j as [|j].
    + rewrite Nat.add_0_r in Hhit.
      destruct (get_by_instanceid_reports w instanceid state_name Hhit)
        as (iw & evs0 & Hrun & Hiw & Hq0 & Hs0).
      exists (evs0 ++ [Print ".. OK"])%list. split; [|split; [|split]].
      * simpl. rewrite (bind_ok _ _ _ _ _ Hrun), Hiw, String.eqb_refl.
        rewrite (bind_ok _ _ _ _ _ (print_run _ _)). unfold ret.
        rewrite extend_extend. reflexivity.
      * unfold queries in *. rewrite count_events_app, Hq0. reflexivity.
      * unfold sleeps in *. rewrite count_events_app, Hs0. reflexivity.
      * exists evs0, [Print ".. OK"]. auto.
    + simpl in Hnn. inversion Hnn as [|? ? Hd Hnn']; subst.
      destruct (Hrep 0%nat) as (st & Hst & Hne); [lia|].
      rewrite Nat.add_0_r in Hst.
      destruct (get_by_instanceid_reports w instanceid st Hst)
        as (iw & evs0 & Hrun & Hiw & Hq0 & Hs0).
      destruct (IH j (extend w (evs0 ++ [Print (next_poll_message
                       st state_name (index + 1) len d); Sleep d]) 1)
                  (index + 1)) as (evs & Hloop & Hq & Hs & _).
      { simpl in Hj. lia. }
      { exact Hnn'. }
      { intros i Hi. simpl.
        replace (clock w + 1 + i)%nat with (clock w + S i)%nat by lia.
        apply Hrep. lia. }
      { simpl. replace (clock w + 1 + j)%nat with (clock w + S j)%nat by lia.
        exact Hhit. }
      eexists. split; [|split; [|split]].
      * simpl. rewrite (bind_ok _ _ _ _ _ Hrun). rewrite Hiw.
        destruct (String.eqb_spec st state_name) as [->|_]; [congruence|].
        rewrite (bind_ok _ _ _ _ _ (print_run _ _)).
        rewrite (bind_ok _ _ _ _ _ (sleep_run _ _ Hd)).
        rewrite !extend_extend. simpl.
        replace (evs0 ++ [Print (next_poll_message st state_name (index + 1) len d)]
                   ++ [Sleep d])%list
          with (evs0 ++ [Print (next_poll_message st state_name (index + 1) len d);
                         Sleep d])%list by reflexivity.
        rewrite Hloop, extend_extend. reflexivity.
      * unfold queries in *. rewrite !count_events_app, Hq0, Hq. reflexivity.
      * unfold sleeps in *. rewrite !count_events_app, Hs0, Hs. simpl. lia.
      * eexists evs0, _. split; [|split; [exact Hq0|exact Hs0]].
        rewrite <- app_assoc. reflexivity.
Qed.

(** The list comprehension of [wait_for_state]. *)
Lemma comprehension_last items x n w :
  last items = Some x ->
  comprehension n (last_item items) w = (Ok (replicate n x), w).
Proof.
  intros Hx. induction n as [|n IH]; simpl; [reflexivity|].
  rewrite (bind_ok _ _ w x w); [|unfold last_item; rewrite Hx; reflexivity].
  rewrite (bind_ok _ _ _ _ _ IH). reflexivity.
Qed.

Lemma comprehension_empty n w :
  comprehension (S n) (last_item []) w = (Raise IndexError, w).
Proof. reflexivity. Qed.

Lemma sum_app xs ys : sum (xs ++ ys) = sum xs + sum ys.
Proof.
  unfold sum. rewrite fold_left_app.
  generalize (fold_left Z.add xs 0). induction ys as [|y ys IH]; intros a;
    simpl; [lia|]. rewrite IH, (IH (0 + y)). lia.
Qed.

(** [wait_for_state] on a list that is not empty: the list object is
    extended in place, the budget is printed, and the loop decides. *)
Lemma wait_for_state_run instanceid state_name sleep_intervals
    last_sleep_repeat w items x :
  let l := default wait_for_state_defaults sleep_intervals in
  let n := Z.to_nat (default 40 last_sleep_repeat) in
  let plan := (items ++ replicate n x)%list in
  let i := snd (parse_instanceid awsfab_settings instanceid) in
  store w !! l = Some items ->
  last items = Some x ->
  wait_for_state instanceid state_name sleep_intervals last_sleep_repeat w
  = match wait_for_state_loop i state_name (Z.of_nat (length plan)) 0 plan
            (extend (store_list w l plan)
               [Print (waiting_message i state_name (sum plan))] 0) with
    | (Ok true, w') => (Ok tt, w')
    | (Ok false, w') =>
        (Raise (WaitForStateError (timeout_message state_name (sum plan))), w')
    | (Raise e, w') => (Raise e, w')
    end.
Proof.
  intros l n plan i Hl Hx. unfold wait_for_state.
  fold l. fold n. subst i.
  destruct (parse_instanceid awsfab_settings instanceid) as [region i]. simpl.
  rewrite (bind_ok _ _ w items w); [|unfold load; rewrite Hl; reflexivity].
  rewrite (bind_ok _ _ _ _ _ (comprehension_last items x n w Hx)).
  fold plan.
  rewrite (bind_ok _ _ w tt (store_list w l plan)); [|reflexivity].
  rewrite (bind_ok _ _ _ plan (store_list w l plan)).
  2:{ unfold load, store_list. simpl. rewrite lookup_insert_eq. reflexivity. }
  rewrite (bind_ok _ _ _ _ _ (print_run _ _)).
  unfold bind.
  destruct (wait_for_state_loop _ _ _ _ _ _) as [[[|]|e] w']; reflexivity.
Qed.

Lemma last_elem_of (items : list Z) x : last items = Some x -> x ∈ items.
Proof.
  intros H. apply last_Some in H as [items' ->]. apply elem_of_app. right.
  apply list_elem_of_singleton. reflexivity.
Qed.

(** What [wait_for_state] does when no poll finds the target state: one
    query and one sleep for every duration of the extended list, the
    last sleep right before the error is raised. *)
Lemma wait_for_state_timeout instanceid state_name sleep_intervals
    last_sleep_repeat w items x :
  let l := default wait_for_state_defaults sleep_intervals in
  let n := Z.to_nat (default 40 last_sleep_repeat) in
  let plan := (items ++ replicate n x)%list in
  let i := snd (parse_instanceid awsfab_settings instanceid) in
  store w !! l = Some items ->
  last items = Some x ->
  Forall (fun d => 0 <= d) items ->
  (forall j, exists st, reports (clock w + j) i st /\ st <> state_name) ->
  exists evs,
    wait_for_state instanceid state_name sleep_intervals last_sleep_repeat w
    = (Raise (WaitForStateError (timeout_message state_name (sum plan))),
       extend (store_list w l plan)
         (Print (waiting_message i state_name (sum plan)) :: evs)
         (length plan)) /\
    queries evs = length plan /\
    sleeps evs = length plan /\
    exists d, last evs = Some (Sleep d).
Proof.
  intros l n plan i Hl Hx Hnn Hrep.
  rewrite (wait_for_state_run _ _ _ _ _ _ _ Hl Hx). fold l n plan i.
  destruct (wait_for_state_loop_never i state_name (Z.of_nat (length plan))
              plan (extend (store_list w l plan)
                      [Print (waiting_message i state_name (sum plan))] 0) 0)
    as (evs & Hloop & Hq & Hs & Hlast).
  { apply Forall_app. split; [exact Hnn|]. apply Forall_replicate.
    rewrite Forall_forall in Hnn. apply Hnn, last_elem_of, Hx. }
  { intros j _. simpl. rewrite Nat.add_0_r. apply Hrep. }
  exists evs. rewrite Hloop, extend_extend. simpl.
  split; [reflexivity|]. split; [exact Hq|]. split; [exact Hs|].
  destruct (last plan) as [d|] eqn:Hd.
  - exists d. apply Hlast. reflexivity.
  - apply last_None in Hd. unfold plan in Hd.
    apply app_eq_nil in Hd as [-> _]. discriminate Hx.
Qed.

(** The effect of [wait_for_state] on a list that is not empty, whatever
    EC2 answers: the list object is extended, the budget is the first
    thing printed, and only events and calls follow. *)
Lemma wait_for_state_effect instanceid state_name sleep_intervals
    last_sleep_repeat w items x :
  let l := default wait_for_state_defaults sleep_intervals in
  let n := Z.to_nat (default 40 last_sleep_repeat) in
  let plan := (items ++ replicate n x)%list in
  let i := snd (parse_instanceid awsfab_settings instanceid) in
  store w !! l = Some items ->
  last items = Some x ->
  exists evs calls,
    snd (wait_for_state instanceid state_name sleep_intervals
           last_sleep_repeat w)
    = extend (store_list w l plan)
        (Print (waiting_message i state_name (sum plan)) :: evs) calls.
Proof.
  intros l n plan i Hl Hx.
  rewrite (wait_for_state_run _ _ _ _ _ _ _ Hl Hx). fold l n plan i.
  pose proof (frames_wait_for_state_loop i state_name
                (Z.of_nat (length plan)) plan 0
                (extend (store_list w l plan)
                   [Print (waiting_message i state_name (sum plan))] 0))
    as (evs & calls & Hf).
  exists evs, calls. rewrite extend_extend in Hf.
  destruct (wait_for_state_loop _ _ _ _ _ _) as [[[|]|e] w2]; exact Hf.
Qed.

(** ** The claims on [wait_for_state] *)

(** C2. For a list of ramp intervals that is not empty and a repeat count
    that is not negative, [wait_for_state] builds the duration sequence
    from the ramp intervals followed by repeat-count copies of the last
    one; its length is the number of ramp intervals plus the repeat
    count, the list object holds it after the call, and the first thing
    the call does, before any poll, is to print the budget, which is the
    sum of that sequence. *)
Theorem wait_for_state_budget instanceid state_name sleep_intervals
    last_sleep_repeat w items :
  let l := default wait_for_state_defaults sleep_intervals in
  let r := default 40 last_sleep_repeat in
  let i := snd (parse_instanceid awsfab_settings instanceid) in
  let w' :=
    snd (wait_for_state instanceid state_name sleep_intervals
           last_sleep_repeat w) in
  store w !! l = Some items ->
  items <> [] ->
  0 <= r ->
  exists x plan evs,
    last items = Some x /\
    plan = (items ++ replicate (Z.to_nat r) x)%list /\
    Z.of_nat (length plan) = Z.of_nat (length items) + r /\
    store w' !! l = Some plan /\
    trace w'
    = (trace w ++ Print (waiting_message i state_name (sum plan)) :: evs)%list.
Proof.
  intros l r i w' Hl Hne Hr.
  destruct (last items) as [x|] eqn:Hx;
    [|apply last_None in Hx; contradiction].
  destruct (wait_for_state_effect instanceid state_name sleep_intervals
              last_sleep_repeat w items x Hl Hx) as (evs & calls & Hw').
  fold l r i w' in Hw'.
  exists x, (items ++ replicate (Z.to_nat r) x)%list, evs.
  split; [reflexivity|]. split; [reflexivity|]. split; [|split].
  - rewrite length_app, length_replicate. lia.
  - rewrite Hw'. simpl. apply lookup_insert_eq.
  - rewrite Hw'. reflexivity.
Qed.

(** C3. When poll number [k] (counted from 1, within the length of the
    sequence) is the first to find the target state, [wait_for_state]
    returns after exactly [k] queries and [k - 1] sleeps; the first query
    comes before any sleep, so for [k = 1] there is one query and no
    sleep. *)
Theorem wait_for_state_reached instanceid state_name sleep_intervals
    last_sleep_repeat w items k :
  let l := default wait_for_state_defaults sleep_intervals in
  let n := Z.to_nat (default 40 last_sleep_repeat) in
  let i := snd (parse_instanceid awsfab_settings instanceid) in
  store w !! l = Some items ->
  items <> [] ->
  Forall (fun d => 0 <= d) items ->
  (1 <= k <= length items + n)%nat ->
  (forall j, (j < k - 1)%nat ->
     exists st, reports (clock w + j) i st /\ st <> state_name) ->
  reports (clock w + (k - 1)) i state_name ->
  exists w' evs,
    wait_for_state instanceid state_name sleep_intervals last_sleep_repeat w
    = (Ok tt, w') /\
    trace w' = (trace w ++ evs)%list /\
    queries evs = k /\
    sleeps evs = (k - 1)%nat /\
    exists pre post,
      evs = (pre ++ post)%list /\ queries pre = 1%nat /\ sleeps pre = 0%nat.
Proof.
  intros l n i Hl Hne Hnn Hk Hrep Hhit.
  destruct (last items) as [x|] eqn:Hx;
    [|apply last_None in Hx; contradiction].
  rewrite (wait_for_state_run _ _ _ _ _ _ _ Hl Hx). fold l n i.
  set (plan := (items ++ replicate n x)%list).
  set (w1 := extend (store_list w l plan)
               [Print (waiting_message i state_name (sum plan))] 0).
  destruct (wait_for_state_loop_reached i state_name
              (Z.of_nat (length plan)) plan (k - 1) w1 0)
    as (evs & Hloop & Hq & Hs & pre & post & Hsplit & Hq1 & Hs1).
  { unfold plan. rewrite length_app, length_replicate. lia. }
  { apply Forall_take, Forall_app. split; [exact Hnn|].
    apply Forall_replicate. rewrite Forall_forall in Hnn.
    apply Hnn, last_elem_of, Hx. }
  { intros j Hj. simpl. rewrite Nat.add_0_r. apply Hrep, Hj. }
  { simpl. rewrite Nat.add_0_r. exact Hhit. }
  rewrite Hloop.
  exists (extend w1 evs (S (k - 1))),
    (Print (waiting_message i state_name (sum plan)) :: evs).
  split; [reflexivity|]. split; [|split; [|split]].
  - simpl. rewrite <- app_assoc. reflexivity.
  - unfold queries in *. simpl. rewrite Hq. lia.
  - unfold sleeps in *. simpl. exact Hs.
  - exists (Print (waiting_message i state_name (sum plan)) :: pre), post.
    rewrite Hsplit. auto.
Qed.

(** C4, as the code has it.  On an empty list [wait_for_state] makes no
    call to the network and fails: with [IndexError], from taking the
    last element of the empty list, when the repeat count is positive,
    and with [WaitForStateError] for a budget of 0 seconds otherwise. *)
Theorem wait_for_state_empty instanceid state_name sleep_intervals
    last_sleep_repeat w :
  let l := default wait_for_state_defaults sleep_intervals in
  let r := default 40 last_sleep_repeat in
  let out :=
    wait_for_state instanceid state_name sleep_intervals last_sleep_repeat w in
  store w !! l = Some [] ->
  (exists evs,
     trace (snd out) = (trace w ++ evs)%list /\
     Forall (fun e => is_network_call e = false) evs) /\
  fst out
  = if 0 <? r then Raise IndexError
    else Raise (WaitForStateError (timeout_message state_name 0)).
Proof.
  intros l r out Hl. unfold out, wait_for_state. fold l r.
  destruct (parse_instanceid awsfab_settings instanceid) as [region i].
  rewrite (bind_ok _ _ w [] w); [|unfold load; rewrite Hl; reflexivity].
  destruct (Z.ltb_spec 0 r) as [Hr|Hr].
  - destruct (Z.to_nat r) as [|n] eqn:Hn; [lia|].
    rewrite (bind_raise _ _ _ _ _ (comprehension_empty n w)). simpl.
    split; [|reflexivity]. exists []. rewrite app_nil_r. auto.
  - replace (Z.to_nat r) with 0%nat by lia.
    rewrite (bind_ok _ _ w [] w); [|reflexivity].
    rewrite (bind_ok _ _ w tt (store_list w l [])); [|reflexivity].
    rewrite (bind_ok _ _ _ [] (store_list w l []));
      [|unfold load, store_list; simpl; rewrite lookup_insert_eq; reflexivity].
    rewrite (bind_ok _ _ _ _ _ (print_run _ _)). simpl.
    split; [|reflexivity]. eexists. split; [reflexivity|].
    repeat constructor.
Qed.

Lemma last_ramp_replicate (prefix : list Z) x n :
  last (prefix ++ x :: replicate n x) = Some x.
Proof.
  rewrite last_app. change (x :: replicate n x) with (replicate (S n) x).
  rewrite replicate_S_end, last_snoc. reflexivity.
Qed.

(** C10. [wait_for_state] extends the list object it is given, in place,
    by repeat-count copies of its last element.  The default list is one
    shared object: a call that leaves [sleep_intervals] out extends it
    for good, and the next such call works on the extended list, whose
    length is 2 plus its own repeat count plus the repeat count of the
    call before; that is the sequence whose sum it prints and, when the
    state is never reached, the number of polls it makes. *)
Theorem wait_for_state_default_grows id1 st1 r1 id2 st2 r2 w :
  let n1 := Z.to_nat (default 40 r1) in
  let n2 := Z.to_nat (default 40 r2) in
  let i2 := snd (parse_instanceid awsfab_settings id2) in
  let w1 := snd (wait_for_state id1 st1 None r1 w) in
  let w2 := snd (wait_for_state id2 st2 None r2 w1) in
  let grown := ([15; 5] ++ replicate (n1 + n2) 5)%list in
  store w !! wait_for_state_defaults = Some [15; 5] ->
  store w1 !! wait_for_state_defaults = Some ([15; 5] ++ replicate n1 5)%list /\
  store w2 !! wait_for_state_defaults = Some grown /\
  length grown = (2 + n2 + n1)%nat /\
  (exists evs,
     trace w2
     = (trace w1 ++ Print (waiting_message i2 st2 (sum grown)) :: evs)%list) /\
  ((forall j, exists st, reports (clock w1 + j) i2 st /\ st <> st2) ->
   exists evs,
     trace w2 = (trace w1 ++ evs)%list /\ queries evs = (2 + n2 + n1)%nat).
Proof.
  intros n1 n2 i2 w1 w2 grown Hw.
  destruct (wait_for_state_effect id1 st1 None r1 w [15; 5] 5 Hw eq_refl)
    as (evs1 & calls1 & Hw1). fold n1 w1 in Hw1. simpl in Hw1.
  assert (H1 : store w1 !! wait_for_state_defaults
               = Some (15 :: 5 :: replicate n1 5)).
  { rewrite Hw1. simpl. apply lookup_insert_eq. }
  assert (Hlast : last (15 :: 5 :: replicate n1 5) = Some 5).
  { apply (last_ramp_replicate [15] 5 n1). }
  assert (Hgrown : (15 :: 5 :: replicate n1 5 ++ replicate n2 5)%list = grown).
  { unfold grown. rewrite replicate_add. reflexivity. }
  split; [exact H1|].
  destruct (wait_for_state_effect id2 st2 None r2 w1 _ 5 H1 Hlast)
    as (evs2 & calls2 & Hw2). fold n2 i2 w2 in Hw2. simpl in Hw2.
  rewrite Hgrown in Hw2.
  split; [|split; [|split]].
  - rewrite Hw2. simpl. apply lookup_insert_eq.
  - unfold grown. rewrite length_app, length_replicate. simpl. lia.
  - exists evs2. rewrite Hw2. reflexivity.
  - intros Hrep.
    destruct (wait_for_state_timeout id2 st2 None r2 w1 _ 5 H1 Hlast)
      as (evs & Hrun & Hq & _).
    { repeat constructor; try lia. apply Forall_replicate. lia. }
    { exact Hrep. }
    fold n2 i2 in Hrun. simpl in Hrun. rewrite Hgrown in Hrun.
    exists (Print (waiting_message i2 st2 (sum grown)) :: evs).
    unfold w2. rewrite Hrun. simpl. split; [reflexivity|].
    unfold queries in *. simpl. simpl in Hq. rewrite Hq.
    rewrite length_app, !length_replicate. fold n2. lia.
Qed.

End Polling.

(** ** The claim on instance identifiers *)

(** C8. An identifier is split at its first colon only: for a string [l]
    without a colon, parsing [l:r] yields the region [l] and the identifier
    [r], whatever colons [r] has, and parsing [l] alone yields the default
    region and the identifier [l].  So us-east-1:i-1234 yields us-east-1 and
    i-1234, and i-1234 yields the default region and i-1234. *)
Theorem parse_instanceid_first_colon (awsfab_settings : Settings) (l r : string) :
  PyStr.contains ":" l = false ->
  parse_instanceid awsfab_settings (l +:+ ":" +:+ r) = (l, r) /\
  parse_instanceid awsfab_settings l = (DEFAULT_REGION awsfab_settings, l) /\
  parse_instanceid awsfab_settings "us-east-1:i-1234" = ("us-east-1", "i-1234") /\
  parse_instanceid awsfab_settings "i-1234"
  = (DEFAULT_REGION awsfab_settings, "i-1234").
Proof.
  intros Hl. unfold parse_instanceid, _parse_instanceident.
  split; [|split; [|split; reflexivity]].
  - change (":" +:+ r) with (String ":" r).
    rewrite contains_app, (split_first _ _ _ Hl). reflexivity.
  - rewrite Hl. reflexivity.
Qed.

Lemma parse_instanceid_first_colon_witness :
  PyStr.contains ":" "us-east-1" = false /\
  parse_instanceid Examples.settings "us-east-1:i-1234:b"
  = ("us-east-1", "i-1234:b") /\
  parse_instanceid Examples.settings "us-east-1" = ("eu-west-1", "us-east-1").
Proof.
  split; [reflexivity|].
  destruct (parse_instanceid_first_colon Examples.settings "us-east-1"
              "i-1234:b" eq_refl) as (H1 & H2 & _).
  split; [exact H1|exact H2].
Defined.

(** Every string either has no colon or is of the form [l:r] with no colon
    in [l], so the two cases of C8 cover every input. *)
Lemma parse_instanceid_cases (s : string) :
  PyStr.contains ":" s = false \/
  exists l r, s = l +:+ ":" +:+ r /\ PyStr.contains ":" l = false.
Proof.
  destruct (PyStr.contains ":" s) eqn:H; [right|left; reflexivity].
  destruct (split_contains _ _ H) as (l & r & -> & Hl & _). exists l, r.
  split; [reflexivity|exact Hl].
Qed.

(** ** The claim on merged tags *)

(** C7. [get_all_tags] returns the tags of the configuration overwritten
    key by key by the extra tags: a key of the extra tags has the value
    given there, any other key the value of the configuration.  The tags
    Name=a, Env=prod of a configuration merged with the extra tag Name=b
    are Name=b, Env=prod. *)
Theorem get_all_tags_merge (self : Ec2LaunchInstance)
    (config_tags : gmap string string) (w : World) :
  conf_tags (conf self) = Some config_tags ->
  exists merged,
    get_all_tags self w = (Ok merged, w) /\
    (forall k,
       merged !! k = match extra_tags self !! k with
                     | Some v => Some v
                     | None => config_tags !! k
                     end) /\
    (config_tags = {[ "Name" := "a"; "Env" := "prod" ]} ->
     extra_tags self = {[ "Name" := "b" ]} ->
     merged = {[ "Name" := "b"; "Env" := "prod" ]}).
Proof.
  intros Hc. unfold get_all_tags. rewrite Hc. simpl.
  eexists. split; [reflexivity|].
  assert (Hlook : forall k,
             dict_update (dict_update ∅ config_tags) (extra_tags self) !! k
             = match extra_tags self !! k with
               | Some v => Some v
               | None => config_tags !! k
               end).
  { intros k. unfold dict_update. rewrite lookup_union.
    destruct (extra_tags self !! k) as [v|] eqn:He.
    - destruct ((config_tags ∪ ∅) !! k); reflexivity.
    - rewrite lookup_union, lookup_empty.
      destruct (config_tags !! k); reflexivity. }
  split; [exact Hlook|].
  intros -> He. apply map_eq. intros k. rewrite Hlook, He.
  destruct (decide (k = "Name")) as [->|Hn]; [reflexivity|].
  rewrite lookup_singleton_ne by congruence.
  rewrite !lookup_insert_ne by congruence. reflexivity.
Qed.

Lemma get_all_tags_merge_witness :
  conf_tags (conf (Examples.launcher
                     (Some {[ "Name" := "a"; "Env" := "prod" ]})
                     {[ "Name" := "b" ]} None))
  = Some {[ "Name" := "a"; "Env" := "prod" ]} /\
  get_all_tags (Examples.launcher (Some {[ "Name" := "a"; "Env" := "prod" ]})
                  {[ "Name" := "b" ]} None) (module_loaded [])
  = (Ok {[ "Name" := "b"; "Env" := "prod" ]}, module_loaded []).
Proof.
  split; [reflexivity|].
  destruct (get_all_tags_merge
              (Examples.launcher (Some {[ "Name" := "a"; "Env" := "prod" ]})
                 {[ "Name" := "b" ]} None)
              {[ "Name" := "a"; "Env" := "prod" ]} (module_loaded []) eq_refl)
    as (merged & Hrun & _ & Hex).
  rewrite Hrun, (Hex eq_refl eq_refl). reflexivity.
Defined.

(** ** Concrete runs of [wait_for_state] *)

(** C1 at the list [15, 5] with two repeats and an instance that stays
    pending: the call raises [WaitForStateError] for the budget of 30
    seconds after four queries, and it has slept four times, not three:
    the last thing it does before raising is to sleep 5 seconds, after
    the last query. *)
Theorem wait_for_state_sleeps_after_last_query :
  let out :=
    wait_for_state Examples.settings Examples.ec2_stuck "i-1234" "running"
      (Some 1%nat) (Some 2) (Examples.world_with [15; 5] []) in
  fst out = Raise (WaitForStateError (timeout_message "running" 30)) /\
  store (snd out) !! 1%nat = Some [15; 5; 5; 5] /\
  queries (trace (snd out)) = 4%nat /\
  sleeps (trace (snd out)) = 4%nat /\
  last (trace (snd out)) = Some (Sleep 5).
Proof. vm_compute. repeat split; reflexivity. Qed.

Lemma wait_for_state_budget_witness :
  store (Examples.world_with [15; 5] []) !! 1%nat = Some [15; 5] /\
  [15; 5] <> [] /\
  0 <= 2 /\
  exists x plan evs,
    last [15; 5] = Some x /\
    plan = ([15; 5] ++ replicate (Z.to_nat 2) x)%list /\
    Z.of_nat (length plan) = Z.of_nat (length [15; 5]) + 2 /\
    store (snd (wait_for_state Examples.settings Examples.ec2_stuck "i-1234"
                  "running" (Some 1%nat) (Some 2)
                  (Examples.world_with [15; 5] []))) !! 1%nat = Some plan /\
    trace (snd (wait_for_state Examples.settings Examples.ec2_stuck "i-1234"
                  "running" (Some 1%nat) (Some 2)
                  (Examples.world_with [15; 5] [])))
    = (trace (Examples.world_with [15; 5] [])
         ++ Print (waiting_message "i-1234" "running" (sum plan)) :: evs)%list.
Proof.
  split; [reflexivity|]. split; [discriminate|]. split; [lia|].
  apply (wait_for_state_budget Examples.settings Examples.ec2_stuck "i-1234"
           "running" (Some 1%nat) (Some 2) (Examples.world_with [15; 5] [])
           [15; 5]); [reflexivity|discriminate|simpl; lia].
Defined.

Lemma reports_example state_of now instanceid :
  reports Examples.settings (Examples.ec2_of state_of) now instanceid
    (state_of now (snd (parse_instanceid Examples.settings instanceid))).
Proof.
  unfold reports. simpl. eexists _, _, _.
  split; [reflexivity|]. split; reflexivity.
Qed.

Lemma wait_for_state_reached_witness :
  exists w' evs,
    wait_for_state Examples.settings (Examples.ec2_running_after 2) "i-1234"
      "running" (Some 1%nat) (Some 2) (Examples.world_with [15; 5] [])
    = (Ok tt, w') /\
    trace w' = (trace (Examples.world_with [15; 5] []) ++ evs)%list /\
    queries evs = 3%nat /\
    sleeps evs = 2%nat.
Proof.
  destruct (wait_for_state_reached Examples.settings
              (Examples.ec2_running_after 2) "i-1234" "running" (Some 1%nat)
              (Some 2) (Examples.world_with [15; 5] []) [15; 5] 3)
    as (w' & evs & Hrun & Htr & Hq & Hs & _).
  - reflexivity.
  - discriminate.
  - repeat constructor; lia.
  - simpl. lia.
  - intros j Hj. exists "pending". split; [|discriminate].
    destruct j as [|[|j]]; [| |simpl in Hj; lia];
      apply (reports_example
               (fun now _ => if (now <? 2)%nat then "pending" else "running")).
  - apply (reports_example
             (fun now _ => if (now <? 2)%nat then "pending" else "running")).
  - exists w', evs. auto.
Defined.

(** C4 as stated fails: on an empty list, with the default repeat count,
    the call is not rejected by a check of its configuration; it crashes
    with the [IndexError] of taking the last element of an empty list. *)
Lemma wait_for_state_empty_crashes :
  fst (wait_for_state Examples.settings Examples.ec2_stuck "i-1234" "running"
         (Some 1%nat) None (Examples.world_with [] []))
  = Raise IndexError /\
  last_item [] (Examples.world_with [] [])
  = (Raise IndexError, Examples.world_with [] []).
Proof. split; reflexivity. Qed.

Lemma wait_for_state_empty_witness :
  store (Examples.world_with [] []) !! 1%nat = Some [] /\
  trace (snd (wait_for_state Examples.settings Examples.ec2_stuck "i-1234"
                "running" (Some 1%nat) (Some 0) (Examples.world_with [] [])))
  = [Print (waiting_message "i-1234" "running" 0)] /\
  fst (wait_for_state Examples.settings Examples.ec2_stuck "i-1234" "running"
         (Some 1%nat) (Some 0) (Examples.world_with [] []))
  = Raise (WaitForStateError (timeout_message "running" 0)).
Proof.
  split; [reflexivity|].
  destruct (wait_for_state_empty Examples.settings Examples.ec2_stuck "i-1234"
              "running" (Some 1%nat) (Some 0) (Examples.world_with [] [])
              eq_refl) as [_ Hout].
  split; [reflexivity|exact Hout].
Defined.

Lemma wait_for_state_default_grows_witness :
  store (module_loaded []) !! wait_for_state_defaults = Some [15; 5] /\
  store (snd (wait_for_state Examples.settings Examples.ec2_stuck "i-2"
                "running" None (Some 1)
                (snd (wait_for_state Examples.settings Examples.ec2_stuck
                        "i-1" "running" None (Some 3) (module_loaded [])))))
    !! wait_for_state_defaults
  = Some [15; 5; 5; 5; 5; 5].
Proof.
  split; [reflexivity|].
  destruct (wait_for_state_default_grows Examples.settings Examples.ec2_stuck
              "i-1" "running" (Some 3) "i-2" "running" (Some 1)
              (module_loaded []) eq_refl) as (_ & H2 & _).
  exact H2.
Defined.

(** ** The claims on batches *)

Lemma for_each_app {A} (xs ys : list A) (body : A -> M unit) w :
  for_each (xs ++ ys) body w
  = match for_each xs body w with
    | (Ok _, w1) => for_each ys body w1
    | (Raise e, w1) => (Raise e, w1)
    end.
Proof.
  revert w. induction xs as [|x xs IH]; intros w; simpl; [reflexivity|].
  unfold bind. destruct (body x w) as [[[]|e] w1]; [apply IH|reflexivity].
Qed.

(** C5, as the code has it.  [wait_for_running_state_many] waits on the
    launched instances in the order of the batch, and has no handler for
    the error of a wait: when the waits on the instances before instance
    [i] have returned and the wait on [i] raises [WaitForStateError], the
    whole call ends with that error in the world that the wait on [i]
    left.  Nothing is done for the instances after [i]. *)
Theorem wait_for_running_state_many_stops (awsfab_settings : Settings)
    (ec2 : EC2) (before after : list Ec2LaunchInstance)
    (launcher : Ec2LaunchInstance) (inst : boto.Instance)
    (sleep_intervals : option loc) (last_sleep_repeat : option Z)
    (w w1 w2 : World) (msg : string) :
  wait_for_running_state_many awsfab_settings ec2 before sleep_intervals
    last_sleep_repeat w = (Ok tt, w1) ->
  launched launcher = Some inst ->
  wait_for_running_state awsfab_settings ec2 (boto.id inst) sleep_intervals
    last_sleep_repeat w1 = (Raise (WaitForStateError msg), w2) ->
  wait_for_running_state_many awsfab_settings ec2
    (before ++ launcher :: after) sleep_intervals last_sleep_repeat w
  = (Raise (WaitForStateError msg), w2).
Proof.
  intros Hbefore Hinst Hwait. unfold wait_for_running_state_many in *.
  rewrite for_each_app, Hbefore. simpl.
  unfold launched_id. rewrite Hinst.
  rewrite (bind_raise _ _ w1 (WaitForStateError msg) w2); [reflexivity|].
  rewrite (bind_ok _ _ w1 (boto.id inst) w1); [exact Hwait|reflexivity].
Qed.

Lemma wait_for_running_state_many_stops_witness :
  wait_for_running_state_many Examples.settings Examples.ec2_first_stuck
    [Examples.launcher None ∅ (Some (Examples.machine "i-2" "pending"))]
    (Some 1%nat) (Some 0) (Examples.world_with [1] [])
  = (Ok tt,
     snd (wait_for_running_state Examples.settings Examples.ec2_first_stuck
            "i-2" (Some 1%nat) (Some 0) (Examples.world_with [1] []))) /\
  wait_for_running_state_many Examples.settings Examples.ec2_first_stuck
    [Examples.launcher None ∅ (Some (Examples.machine "i-2" "pending"));
     Examples.launcher None ∅ (Some (Examples.machine "i-1" "pending"));
     Examples.launcher None ∅ (Some (Examples.machine "i-3" "pending"))]
    (Some 1%nat) (Some 0) (Examples.world_with [1] [])
  = (Raise (WaitForStateError (timeout_message "running" 1)),
     snd (wait_for_running_state Examples.settings Examples.ec2_first_stuck
            "i-1" (Some 1%nat) (Some 0)
            (snd (wait_for_running_state Examples.settings
                    Examples.ec2_first_stuck "i-2" (Some 1%nat) (Some 0)
                    (Examples.world_with [1] []))))).
Proof.
  split; [reflexivity|].
  eapply (wait_for_running_state_many_stops Examples.settings
           Examples.ec2_first_stuck
           [Examples.launcher None ∅ (Some (Examples.machine "i-2" "pending"))]
           [Examples.launcher None ∅ (Some (Examples.machine "i-3" "pending"))]
           (Examples.launcher None ∅ (Some (Examples.machine "i-1" "pending")))
           (Examples.machine "i-1" "pending")
           (Some 1%nat) (Some 0) (Examples.world_with [1] []));
    reflexivity.
Defined.

(** C5 as stated fails: in a batch of the instances i-1, which stays
    pending, and i-2, the wait on i-1 times out, the call raises, and i-2
    is never polled. *)
Lemma wait_for_running_state_many_skips :
  let batch :=
    [Examples.launcher None ∅ (Some (Examples.machine "i-1" "pending"));
     Examples.launcher None ∅ (Some (Examples.machine "i-2" "pending"))] in
  let out :=
    wait_for_running_state_many Examples.settings Examples.ec2_first_stuck
      batch (Some 1%nat) (Some 0) (Examples.world_with [1] []) in
  batch_ids batch = ["i-1"; "i-2"] /\
  fst out = Raise (WaitForStateError (timeout_message "running" 1)) /\
  waited_on "i-1" (trace (snd out)) = true /\
  waited_on "i-2" (trace (snd out)) = false /\
  ~ Forall (fun i => waited_on i (trace (snd out)) = true) (batch_ids batch).
Proof.
  cbv zeta. split; [reflexivity|]. split; [reflexivity|].
  split; [reflexivity|]. split; [reflexivity|].
  intros H. inversion H as [|? ? _ H2]; subst.
  inversion H2 as [|? ? H3 _]; subst. discriminate H3.
Qed.

(** ** The claim on lookups by tags *)

(** C9. When the query that [get_by_tagvalue] sends for the tags is
    answered with an empty sequence, the call raises [LookupError]: it does
    not return. *)
Theorem get_by_tagvalue_empty (awsfab_settings : Settings) (ec2 : EC2)
    (py : PyLib) (tags : gmap string string) (region : option string)
    (w : World) (conn : boto.Connection) :
  connect_to_region ec2 (region_or_default awsfab_settings region) = Some conn ->
  ec2_get_all_instances ec2 (clock w) (boto.region_name conn)
    (boto.Filters (kmap (String.append "tag:") tags)) = Ok [] ->
  exists w',
    get_by_tagvalue awsfab_settings ec2 py tags region w
    = (Raise (LookupError
                ("No ec2 instances with tags"
                   +:+ repr_dict py (kmap (String.append "tag:") tags))), w') /\
    queries (trace w') = S (queries (trace w)).
Proof.
  intros Hc Hq. unfold get_by_tagvalue, connect, get_all_instances.
  rewrite (bind_ok _ _ w (Some conn)
             (extend w [ConnectToRegion (region_or_default awsfab_settings region)] 0)).
  2:{ rewrite (bind_ok _ _ _ _ _ (emit_run _ _)). unfold ret. rewrite Hc.
      reflexivity. }
  erewrite bind_ok.
  2:{ rewrite (bind_ok _ _ _ _ _ (emit_run _ _)).
      rewrite (bind_ok _ _ _ _ _ (tick_run _)).
      simpl. rewrite !Nat.add_0_r, Hq. reflexivity. }
  simpl. eexists. split; [reflexivity|].
  simpl. unfold queries. rewrite !count_events_app. simpl. lia.
Qed.

Lemma get_by_tagvalue_empty_witness :
  connect_to_region Examples.ec2_stuck
    (region_or_default Examples.settings None)
  = Some {| boto.region_name := "eu-west-1" |} /\
  fst (get_by_tagvalue Examples.settings Examples.ec2_stuck Examples.pylib
         {[ "role" := "web" ]} None (module_loaded []))
  = Raise (LookupError "No ec2 instances with tags{...}").
Proof.
  split; [reflexivity|].
  destruct (get_by_tagvalue_empty Examples.settings Examples.ec2_stuck
              Examples.pylib {[ "role" := "web" ]} None (module_loaded [])
              {| boto.region_name := "eu-west-1" |} eq_refl eq_refl)
    as (w' & Hrun & _).
  rewrite Hrun. reflexivity.
Defined.

(** Conversely, a call of [get_by_tagvalue] that returns was answered with
    a sequence of reservations that is not empty. *)
Lemma get_by_tagvalue_ok_nonempty (awsfab_settings : Settings) (ec2 : EC2)
    (py : PyLib) (tags : gmap string string) (region : option string)
    (w w' : World) (insts : list Ec2InstanceWrapper) :
  get_by_tagvalue awsfab_settings ec2 py tags region w = (Ok insts, w') ->
  exists conn reservations,
    connect_to_region ec2 (region_or_default awsfab_settings region)
    = Some conn /\
    ec2_get_all_instances ec2 (clock w) (boto.region_name conn)
      (boto.Filters (kmap (String.append "tag:") tags)) = Ok reservations /\
    reservations <> [].
Proof.
  unfold get_by_tagvalue, connect, get_all_instances.
  rewrite (bind_ok _ _ w
             (connect_to_region ec2 (region_or_default awsfab_settings region))
             (extend w [ConnectToRegion (region_or_default awsfab_settings region)] 0));
    [|rewrite (bind_ok _ _ _ _ _ (emit_run _ _)); reflexivity].
  destruct (connect_to_region ec2 _) as [conn|]; [|discriminate].
  unfold bind at 1.
  rewrite (bind_ok _ _ _ _ _ (emit_run _ _)).
  rewrite (bind_ok _ _ _ _ _ (tick_run _)). simpl.
  rewrite !Nat.add_0_r.
  destruct (ec2_get_all_instances ec2 (clock w) _ _) as [rs|e] eqn:Hq;
    [|discriminate].
  simpl. destruct rs as [|r rs]; [discriminate|].
  intros _. exists conn, (r :: rs). split; [reflexivity|].
  split; [exact Hq|discriminate].
Qed.

(** ** The claim on confirmation *)

Lemma _confirm_run question w line rest :
  stdin w = line :: rest ->
  exists w',
    _confirm question w
    = (if String.eqb (PyStr.lower line) "y" then Ok tt
       else Raise (SystemExit 1), w') /\
    trace w'
    = (trace w ++ RawInput (question +:+ " [y/N]? ")
         :: (if String.eqb (PyStr.lower line) "y" then []
             else [Abort "Aborted"]))%list.
Proof.
  intros Hin. unfold _confirm, raw_input, abort, bind, emit. simpl.
  rewrite Hin. destruct (String.eqb (PyStr.lower line) "y"); simpl.
  - eexists. split; reflexivity.
  - eexists. split; [reflexivity|]. simpl. rewrite <- app_assoc. reflexivity.
Qed.

(** [prettyformat] has no effect; it fails only for a configuration
    without tags. *)
Lemma prettyformat_run py launcher w :
  match conf_tags (conf launcher) with
  | Some _ => exists text, prettyformat py launcher w = (Ok text, w)
  | None => prettyformat py launcher w = (Raise (KeyError "tags"), w)
  end.
Proof.
  unfold prettyformat, get_all_tags, getitem.
  destruct (conf_tags (conf launcher)) as [ct|]; [|reflexivity].
  simpl. unfold bind, ret. simpl.
  destruct (dict_update (dict_update ∅ ct) (extra_tags launcher) !! "Name");
    eexists; reflexivity.
Qed.

(** One item of the listing of [confirm_many] only prints. *)
Lemma confirm_item py launcher w :
  exists r evs,
    (print "" ;; text <- prettyformat py launcher ;; print text) w
    = (r, extend w evs 0) /\
    (r = Ok tt \/ r = Raise (KeyError "tags")) /\
    (is_Some (conf_tags (conf launcher)) -> r = Ok tt) /\
    count_events is_launch evs = 0%nat.
Proof.
  rewrite (bind_ok _ _ _ _ _ (print_run _ _)).
  pose proof (prettyformat_run py launcher (extend w [Print ""] 0)) as Hp.
  destruct (conf_tags (conf launcher)) as [ct|].
  - destruct Hp as [text Hp]. rewrite (bind_ok _ _ _ _ _ Hp), print_run.
    rewrite extend_extend. exists (Ok tt), [Print ""; Print text]. auto.
  - rewrite (bind_raise _ _ _ _ _ Hp).
    exists (Raise (KeyError "tags")), [Print ""].
    split; [reflexivity|]. split; [auto|]. split; [|reflexivity].
    intros [? H]. discriminate H.
Qed.

(** The listing of the launchers in [confirm_many] only prints. *)
Lemma confirm_listing py launchers :
  forall w,
  exists r evs,
    for_each launchers
      (fun launcher =>
         print "" ;; text <- prettyformat py launcher ;; print text) w
    = (r, extend w evs 0) /\
    (r = Ok tt \/ r = Raise (KeyError "tags")) /\
    (Forall (fun l => is_Some (conf_tags (conf l))) launchers -> r = Ok tt) /\
    count_events is_launch evs = 0%nat.
Proof.
  induction launchers as [|launcher launchers IH]; intros w; simpl.
  - exists (Ok tt), []. unfold ret. rewrite extend_nil. auto.
  - destruct (confirm_item py launcher w) as (r & evs & Hrun & Hr & Hok & Hc).
    destruct Hr as [-> | ->].
    + rewrite (bind_ok _ _ _ _ _ Hrun).
      destruct (IH (extend w evs 0)) as (r' & evs' & Hrun' & Hr' & Hok' & Hc').
      exists r', (evs ++ evs')%list. rewrite Hrun', extend_extend.
      split; [reflexivity|]. split; [exact Hr'|]. split.
      * intros Hall. inversion Hall; subst. auto.
      * rewrite count_events_app, Hc, Hc'. reflexivity.
    + rewrite (bind_raise _ _ _ _ _ Hrun).
      exists (Raise (KeyError "tags")), evs.
      split; [reflexivity|]. split; [auto|]. split; [|exact Hc].
      intros Hall. inversion Hall; subst. auto.
Qed.

(** [confirm_many] up to the prompt: what is printed, and whether the
    listing failed. *)
Lemma confirm_many_run py launchers w :
  exists r evs,
    (r = Ok tt \/ r = Raise (KeyError "tags")) /\
    (Forall (fun l => is_Some (conf_tags (conf l))) launchers -> r = Ok tt) /\
    count_events is_launch evs = 0%nat /\
    confirm_many py launchers w
    = match r with
      | Ok _ => _confirm "Create instances" (extend w evs 0)
      | Raise e => (Raise e, extend w evs 0)
      end.
Proof.
  unfold confirm_many.
  rewrite (bind_ok _ _ _ _ _ (print_run _ _)).
  rewrite (bind_ok _ _ _ _ _ (print_run _ _)).
  rewrite extend_extend.
  match goal with
  | |- context [extend w ?evs0 _] =>
      destruct (confirm_listing py launchers (extend w evs0 (0 + 0)))
        as (r & evs & Hrun & Hr & Hok & Hc);
      destruct Hr as [-> | ->];
      [ exists (Ok tt), (evs0 ++ evs ++ [Print (PyStr.repeat_str "-" 80)])%list
      | exists (Raise (KeyError "tags")), (evs0 ++ evs)%list ]
  end.
  - split; [auto|]. split; [auto|]. split.
    { rewrite !count_events_app, Hc. reflexivity. }
    rewrite (bind_ok _ _ _ _ _ Hrun).
    rewrite (bind_ok _ _ _ _ _ (print_run _ _)).
    rewrite !extend_extend. reflexivity.
  - split; [auto|]. split; [exact Hok|]. split.
    { rewrite !count_events_app, Hc. reflexivity. }
    rewrite (bind_raise _ _ _ _ _ Hrun). rewrite !extend_extend. reflexivity.
Qed.

(** C6. The line the operator types is an assent exactly when it equals
    y without regard to case, that is when it is y or Y.  For any other
    line [confirm_many] does not return: it aborts with [SystemExit]
    (or has failed before the prompt, on a configuration without tags), so
    that a batch run as the class documents it, confirm, then launch, then
    wait, ends there, and no launch call has been made. *)
Theorem confirm_many_gate (awsfab_settings : Settings) (ec2 : EC2) (py : PyLib)
    (launchers : list Ec2LaunchInstance) (question line : string)
    (rest : list string) (w : World) :
  stdin w = line :: rest ->
  (fst (_confirm question w) = Ok tt <-> PyStr.lower line = "y") /\
  (PyStr.lower line = "y" <-> line = "y" \/ line = "Y") /\
  (PyStr.lower line <> "y" ->
   fst (_confirm question w) = Raise (SystemExit 1) /\
   exists e w',
     confirm_many py launchers w = (Raise e, w') /\
     (e = SystemExit 1 \/ e = KeyError "tags") /\
     (Forall (fun l => is_Some (conf_tags (conf l))) launchers ->
      e = SystemExit 1) /\
     launch_many awsfab_settings ec2 py launchers w = (Raise e, w') /\
     count_events is_launch (trace w') = count_events is_launch (trace w)).
Proof.
  intros Hin.
  destruct (_confirm_run question w line rest Hin) as (wq & Hq & _).
  split; [|split; [apply lower_y|]].
  - rewrite Hq. simpl. destruct (String.eqb_spec (PyStr.lower line) "y");
      split; intros H; congruence.
  - intros Hno. split.
    { rewrite Hq. simpl.
      destruct (String.eqb_spec (PyStr.lower line) "y"); congruence. }
    destruct (confirm_many_run py launchers w)
      as (r & evs & Hr & Hok & Hc & Hrun).
    assert (Hgate : exists e w',
               confirm_many py launchers w = (Raise e, w') /\
               (e = SystemExit 1 \/ e = KeyError "tags") /\
               (Forall (fun l => is_Some (conf_tags (conf l))) launchers ->
                e = SystemExit 1) /\
               count_events is_launch (trace w')
               = count_events is_launch (trace w)).
    { destruct Hr as [-> | ->].
      - destruct (_confirm_run "Create instances" (extend w evs 0) line rest Hin)
          as (w' & Hrun' & Htr).
        destruct (String.eqb_spec (PyStr.lower line) "y"); [congruence|].
        exists (SystemExit 1), w'. rewrite Hrun, Hrun'.
        split; [reflexivity|]. split; [auto|]. split; [auto|].
        rewrite Htr. simpl. rewrite !count_events_app, Hc. simpl. lia.
      - exists (KeyError "tags"), (extend w evs 0). rewrite Hrun.
        split; [reflexivity|]. split; [auto|].
        split; [intros Hall; specialize (Hok Hall); discriminate Hok|].
        simpl. rewrite count_events_app, Hc. lia. }
    destruct Hgate as (e & w' & Hcm & He & Hall & Hcount).
    exists e, w'. split; [exact Hcm|]. split; [exact He|].
    split; [exact Hall|]. split; [|exact Hcount].
    unfold launch_many. apply bind_raise. exact Hcm.
Qed.

Lemma confirm_many_gate_witness :
  stdin (module_loaded ["n"]) = "n" :: [] /\
  PyStr.lower "n" <> "y" /\
  exists w',
    launch_many Examples.settings Examples.ec2_stuck Examples.pylib
      [Examples.launcher (Some ∅) {[ "Name" := "a" ]} None;
       Examples.launcher (Some ∅) {[ "Name" := "b" ]} None]
      (module_loaded ["n"])
    = (Raise (SystemExit 1), w') /\
    count_events is_launch (trace w') = 0%nat.
Proof.
  split; [reflexivity|]. split; [discriminate|].
  destruct (confirm_many_gate Examples.settings Examples.ec2_stuck
              Examples.pylib
              [Examples.launcher (Some ∅) {[ "Name" := "a" ]} None;
               Examples.launcher (Some ∅) {[ "Name" := "b" ]} None]
              "Create instances" "n" [] (module_loaded ["n"]) eq_refl)
    as (_ & _ & Hgate).
  destruct (Hgate ltac:(discriminate)) as (_ & e & w' & _ & _ & He & Hrun & Hc).
  exists w'. rewrite Hrun, Hc, He; [split; reflexivity|].
  repeat constructor; eexists; reflexivity.
Defined.
